(** * gotestsum: the command-line front end (main.go)

    A shallow embedding of [main.go]: the argument composer
    ([goTestCmdArgs], [pathFromEnv], [hasJSONArg]), the process launcher
    ([startGoTest]), the orchestration ([run]), the summary policy
    ([summarizer]) and the exit translation at the end of [main].

    Strings are [string], Go slices of strings are [list string], the Go
    [int] behind [testjson.Summary] is a 64-bit two's complement integer
    held in [Z] with its wrap-around written out.  The operating system
    and the packages the file calls into (os/exec, testjson, the event
    handler) are an explicit [World] of call results, and every call the
    code makes is recorded in a trace of [Event]s. *)

From Stdlib Require Import ZArith List String Bool Lia Permutation.
Import ListNotations.

Local Open Scope string_scope.
Local Open Scope list_scope.
Local Open Scope Z_scope.

(** ** Options and environment *)

(** [type options struct] *)
Record options : Type := mkOptions {
  args       : list string;
  format     : string;
  debug      : bool;
  rawCommand : bool;
  jsonFile   : string;
  junitFile  : string;
  noColor    : bool;
  noSummary  : list string
}.

(** The process environment as [os.LookupEnv] sees it: [None] when the
    variable is not set, [Some v] when it is (also for an empty [v]). *)
Definition Env : Type := string -> option string.

Definition emptyEnv : Env := fun _ => None.

Definition setEnv (k v : string) (env : Env) : Env :=
  fun k' => if String.eqb k' k then Some v else env k'.

Definition lookEnvWithDefault (env : Env) (key defValue : string) : string :=
  match env key with
  | Some value => value
  | None => defValue
  end.

Definition pathFromEnv (env : Env) (defaultPath : string) : string :=
  lookEnvWithDefault env "TEST_DIRECTORY" defaultPath.

(** ** Argument composer *)

(** The [for ... range] loop of [hasJSONArg], one iteration per element. *)
Fixpoint hasJSONArg (args : list string) : bool :=
  match args with
  | [] => false
  | arg :: rest =>
      if String.eqb arg "-json" || String.eqb arg "--json" then true
      else hasJSONArg rest
  end.

Definition goTestCmdArgs (env : Env) (opts : options) : list string :=
  let args := opts.(args) in
  let defaultArgs := ["go"; "test"] in
  if opts.(rawCommand) then args
  else if Nat.eqb (List.length args) 0 then
    defaultArgs ++ ["-json"; pathFromEnv env "./..."]
  else
    let defaultArgs :=
      if negb (hasJSONArg args) then defaultArgs ++ ["-json"] else defaultArgs in
    let testPath := pathFromEnv env "" in
    let args :=
      if negb (String.eqb testPath "") then args ++ [testPath] else args in
    defaultArgs ++ args.

(** [opts] with its positional arguments replaced, the other fields kept. *)
Definition withArgs (opts : options) (a : list string) : options :=
  mkOptions a opts.(format) opts.(debug) opts.(rawCommand) opts.(jsonFile)
            opts.(junitFile) opts.(noColor) opts.(noSummary).

(** What the composer appends after the user's arguments in the
    "arguments supplied" branches: the override when set and non-empty. *)
Definition envSuffix (env : Env) : list string :=
  let testPath := pathFromEnv env "" in
  if negb (String.eqb testPath "") then [testPath] else [].

(** ** Summary policy *)

(** Go's [int] on the 64-bit targets: two's complement, wrapping. *)
Definition intSize : Z := 64.

Definition int_wrap (z : Z) : Z :=
  (z + 2 ^ (intSize - 1)) mod 2 ^ intSize - 2 ^ (intSize - 1).

(** [a - b] on [int]. *)
Definition int_sub (a b : Z) : Z := int_wrap (a - b).

(** The [testjson.Summary] constants [main.go] uses.  Their declaration is
    in package testjson, so the embedding takes their values as a
    parameter of [summarizer]. *)
Record SummaryFlags : Type := mkSummaryFlags {
  SummarizeAll     : Z;
  SummarizeSkipped : Z;
  SummarizeFailed  : Z;
  SummarizeErrors  : Z
}.

(** [f] is one bit of the mask [all]. *)
Definition isFlagOf (all f : Z) : bool :=
  (0 <? f) && (f =? 2 ^ Z.log2 f) && (Z.log2 f <? intSize - 2)
  && Z.testbit all (Z.log2 f).

(** Modelled from the spec: the values of the testjson constants are not
    under src/.  The spec's data model makes SummarySections "a set-valued
    configuration over a fixed enumeration {Failed, Skipped, Errors,
    (others ...)}, represented as an additive/subtractive flag set", with
    "all sections enabled" as the base: three distinct single-bit flags,
    each set in a non-negative base mask. *)
Definition flagsOk (fl : SummaryFlags) : bool :=
  (0 <=? SummarizeAll fl) && (SummarizeAll fl <? 2 ^ (intSize - 2))
  && isFlagOf (SummarizeAll fl) (SummarizeSkipped fl)
  && isFlagOf (SummarizeAll fl) (SummarizeFailed fl)
  && isFlagOf (SummarizeAll fl) (SummarizeErrors fl)
  && negb (SummarizeSkipped fl =? SummarizeFailed fl)
  && negb (SummarizeSkipped fl =? SummarizeErrors fl)
  && negb (SummarizeFailed fl =? SummarizeErrors fl).

(** An iota-style layout of the enumeration, used to run the model:
    skipped, failed and errors on bits 0, 1 and 2, and one further
    section of the reporting package on bit 3. *)
Definition iotaFlags : SummaryFlags :=
  {| SummarizeAll := 15; SummarizeSkipped := 1;
     SummarizeFailed := 2; SummarizeErrors := 4 |}.

(** The same layout without a further section. *)
Definition threeFlags : SummaryFlags :=
  {| SummarizeAll := 7; SummarizeSkipped := 1;
     SummarizeFailed := 2; SummarizeErrors := 4 |}.

(** The bitmask reading of a [Summary]: section [f] is enabled in [s]. *)
Definition includes (s f : Z) : bool := negb (Z.land s f =? 0).

(** Every bit of [s] is a bit of [base]. *)
Definition sectionsSubset (s base : Z) : bool := Z.land s base =? s.

(** The body of the loop in [summarizer]: the [switch item]. *)
Definition summarizerStep (fl : SummaryFlags) (summary : Z) (item : string) : Z :=
  if String.eqb item "failed" then int_sub summary (SummarizeFailed fl)
  else if String.eqb item "skipped" then int_sub summary (SummarizeSkipped fl)
  else if String.eqb item "errors" then int_sub summary (SummarizeErrors fl)
  else summary.

(** [summarizer] returns a closure whose only captured variable is
    [summary]; the embedding returns that value, and [run] passes it to
    [testjson.PrintSummary]. *)
Definition summarizer (fl : SummaryFlags) (opts : options) : Z :=
  fold_left (summarizerStep fl) opts.(noSummary) (SummarizeAll fl).

(** Options that differ from the zero value only in [noSummary]. *)
Definition suppress (l : list string) : options :=
  mkOptions [] "short" false false "" "" false l.

(** The flag value a suppress-list entry subtracts, 0 for other names. *)
Definition flagOf (fl : SummaryFlags) (item : string) : Z :=
  if String.eqb item "failed" then SummarizeFailed fl
  else if String.eqb item "skipped" then SummarizeSkipped fl
  else if String.eqb item "errors" then SummarizeErrors fl
  else 0.

Definition recognized (item : string) : bool :=
  String.eqb item "failed" || String.eqb item "skipped" || String.eqb item "errors".

(** The sum of the flag values a suppress list subtracts. *)
Definition total (fl : SummaryFlags) (l : list string) : Z :=
  fold_right (fun item acc => flagOf fl item + acc) 0 l.

(** ** Errors *)

(** The error values [main] tells apart: [*exec.ExitError] (with the text
    of its process state and the exit code when the platform gives one),
    a plain error, and an error wrapped by [errors.Wrapf]. *)
Inductive error : Type :=
| ExitError (state : string) (code : option Z)
| ErrorString (msg : string)
| WithMessage (cause : error) (msg : string).

(** [err.Error()] *)
Fixpoint Error (e : error) : string :=
  match e with
  | ExitError state _ => state
  | ErrorString msg => msg
  | WithMessage cause msg => (msg ++ ": " ++ Error cause)%string
  end.

(** The [case *exec.ExitError] of a type switch. *)
Definition isExitError (e : error) : bool :=
  match e with
  | ExitError _ _ => true
  | _ => false
  end.

(** The exit code [ExitCodeWithDefault] falls back to.  The spec only says
    that it is fixed; no theorem below depends on its value. *)
Definition defaultExitCode : Z := 127.

(** Modelled from the spec: [ExitCodeWithDefault] is declared in another
    file of the package.  The spec's exit translator propagates "that
    exact exit code" of the child, and "if the exit code cannot be
    determined from the error (unexpected platform-specific shape), fall
    back to a fixed default exit code". *)
Definition ExitCodeWithDefault (e : error) : Z :=
  match e with
  | ExitError _ (Some code) => code
  | _ => defaultExitCode
  end.

(** ** The world outside main.go *)

(** What the calls into os/exec, testjson and the event handler answer
    during one run: [None] is a nil error. *)
Record World : Type := mkWorld {
  lookPath           : string -> string;  (* cmd.Path for a command name *)
  stdoutPipeErr      : option error;      (* p.cmd.StdoutPipe() *)
  stderrPipeErr      : option error;      (* p.cmd.StderrPipe() *)
  startErr           : option error;      (* p.cmd.Start() *)
  pid                : Z;                 (* p.cmd.Process.Pid *)
  newEventHandlerErr : option error;      (* newEventHandler(...) *)
  scanTestOutputErr  : option error;      (* testjson.ScanTestOutput(...) *)
  printSummaryErr    : option error;      (* testjson.PrintSummary(...) *)
  writeJUnitFileErr  : option error;      (* writeJUnitFile(...) *)
  waitErr            : option error       (* goTestProc.cmd.Wait() *)
}.

(** One entry per call that leaves main.go, in program order. *)
Inductive Event : Type :=
| EvSetDebugLevel
| EvSetNoColor
| EvWithCancel
| EvCommandContext (name : string) (rest : list string)
| EvDebugExec (cmdArgs : list string)
| EvStdoutPipe
| EvStderrPipe
| EvStart
| EvDebugPid (p : Z)
| EvNewEventHandler
| EvScanTestOutput
| EvPrintSummary (summary : Z)
| EvWriteJUnitFile (path : string)
| EvWait
| EvHandlerClose
| EvCancel.

Definition isCancel (e : Event) : bool :=
  match e with EvCancel => true | _ => false end.

Definition isStart (e : Event) : bool :=
  match e with EvStart => true | _ => false end.

Definition isStdoutPipe (e : Event) : bool :=
  match e with EvStdoutPipe => true | _ => false end.

Definition isStderrPipe (e : Event) : bool :=
  match e with EvStderrPipe => true | _ => false end.

(** How often the trace satisfies [p]. *)
Definition countEv (p : Event -> bool) (tr : list Event) : nat :=
  List.length (filter p tr).

(** The events before the first one that satisfies [p] (the whole trace
    when none does). *)
Fixpoint before (p : Event -> bool) (tr : list Event) : list Event :=
  match tr with
  | [] => []
  | e :: rest => if p e then [] else e :: before p rest
  end.

(** ** A function body: trace, deferred calls, panics *)

(** A deferred call, or a stored [func()], acts on the trace only. *)
Definition Thunk : Type := list Event -> list Event.

(** The frame of a running function: the trace so far and the calls its
    [defer] statements registered, most recent first. *)
Record Frame : Type := mkFrame {
  trace    : list Event;
  deferred : list Thunk
}.

Inductive Res (A : Type) : Type :=
| Ok (a : A)
| Panic (msg : string).
Arguments Ok {A} a.
Arguments Panic {A} msg.

Definition M (A : Type) : Type := Frame -> Res A * Frame.

Definition ret {A} (a : A) : M A := fun fr => (Ok a, fr).

Definition bind {A B} (m : M A) (k : A -> M B) : M B :=
  fun fr =>
    match m fr with
    | (Ok a, fr') => k a fr'
    | (Panic msg, fr') => (Panic msg, fr')
    end.

Notation "x <- m ;; k" := (bind m (fun x => k))
  (at level 61, m at next level, right associativity).
Notation "m ;; k" := (bind m (fun _ => k))
  (at level 61, right associativity).

Definition emit (e : Event) : M unit :=
  fun fr => (Ok tt, mkFrame (trace fr ++ [e]) (deferred fr)).

(** [defer t()] *)
Definition defer (t : Thunk) : M unit :=
  fun fr => (Ok tt, mkFrame (trace fr) (t :: deferred fr)).

Definition panic {A} (msg : string) : M A :=
  fun fr => (Panic msg, fr).

(** The deferred calls run last registered first. *)
Definition runDeferred (ds : list Thunk) (tr : list Event) : list Event :=
  fold_left (fun acc t => t acc) ds tr.

(** Calling a function: its body runs in a frame of its own, and when it
    returns or panics its deferred calls run before the caller goes on. *)
Definition call {A} (body : M A) : M A :=
  fun fr =>
    match body (mkFrame (trace fr) []) with
    | (r, fr') => (r, mkFrame (runDeferred (deferred fr') (trace fr')) (deferred fr))
    end.

(** ** Process launcher *)

(** [*exec.Cmd], the two fields [run] reads. *)
Record Cmd : Type := mkCmd {
  Path : string;
  Args : list string
}.

Inductive Reader : Type :=
| StdoutReader
| StderrReader.

(** [type proc struct]; a nil reader is [None]. *)
Record proc : Type := mkProc {
  cmd    : Cmd;
  stdout : option Reader;
  stderr : option Reader;
  cancel : Thunk
}.

(** The [cancel] that [context.WithCancel] returns. *)
Definition cancelFunc : Thunk := fun tr => tr ++ [EvCancel].

Definition startGoTest (w : World) (args : list string) : M (proc * option error) :=
  emit EvWithCancel ;;
  match args with
  | [] => panic "runtime error: index out of range [0] with length 0"
  | name :: rest =>
      emit (EvCommandContext name rest) ;;
      let p := mkProc (mkCmd (lookPath w name) (name :: rest)) None None cancelFunc in
      emit (EvDebugExec (Args (cmd p))) ;;
      emit EvStdoutPipe ;;
      match stdoutPipeErr w with
      | Some err => ret (p, Some err)
      | None =>
          let p := mkProc (cmd p) (Some StdoutReader) (stderr p) (cancel p) in
          emit EvStderrPipe ;;
          match stderrPipeErr w with
          | Some err => ret (p, Some err)
          | None =>
              let p := mkProc (cmd p) (stdout p) (Some StderrReader) (cancel p) in
              emit EvStart ;;
              match startErr w with
              | None => emit (EvDebugPid (pid w)) ;; ret (p, None)
              | Some err => ret (p, Some err)
              end
          end
      end
  end.

(** ** Orchestration *)

(** [errors.Wrapf(err, "failed to run %s %s", path, strings.Join(args, " "))] *)
Definition wrapFailedToRun (err : error) (p : proc) : error :=
  WithMessage err
    ("failed to run " ++ Path (cmd p) ++ " " ++ String.concat " " (Args (cmd p)))%string.

(** The body of [run]; [runBody] is what executes between the call and
    the deferred calls. *)
Definition runBody (env : Env) (fl : SummaryFlags) (w : World) (opts : options)
  : M (option error) :=
  r <- call (startGoTest w (goTestCmdArgs env opts)) ;;
  let '(goTestProc, err) := r in
  match err with
  | Some err => ret (Some (wrapFailedToRun err goTestProc))
  | None =>
      defer (cancel goTestProc) ;;
      emit EvNewEventHandler ;;
      match newEventHandlerErr w with
      | Some err => ret (Some err)
      | None =>
          defer (fun tr => tr ++ [EvHandlerClose]) ;;
          emit EvScanTestOutput ;;
          match scanTestOutputErr w with
          | Some err => ret (Some err)
          | None =>
              emit (EvPrintSummary (summarizer fl opts)) ;;
              match printSummaryErr w with
              | Some err => ret (Some err)
              | None =>
                  emit (EvWriteJUnitFile (junitFile opts)) ;;
                  match writeJUnitFileErr w with
                  | Some err => ret (Some err)
                  | None => emit EvWait ;; ret (waitErr w)
                  end
              end
          end
      end
  end.

Definition run (env : Env) (fl : SummaryFlags) (w : World) (opts : options)
  : M (option error) :=
  call (runBody env fl w opts).

(** A run of [f] from an empty trace: its result and the trace when it
    has returned (or panicked). *)
Definition exec {A} (f : M A) : Res A * list Event :=
  match f (mkFrame [] []) with
  | (r, fr) => (r, trace fr)
  end.

(** ** main *)

Definition setupLogging (opts : options) : M unit :=
  (if debug opts then emit EvSetDebugLevel else ret tt) ;;
  (if noColor opts then emit EvSetNoColor else ret tt).

(** How the process ends: [os.Exit(code)] or falling off [main] (exit
    status 0), or a panic that nothing recovers. *)
Inductive Termination : Type :=
| Exited (code : Z)
| Crashed (msg : string).

(** What [main] itself writes to standard error, and how it ends. *)
Record MainResult : Type := mkMainResult {
  diagnostics : string;
  termination : Termination;
  calls       : list Event
}.

(** The line end [fmt.Fprintln] writes. *)
Definition newline : string := String (Ascii.ascii_of_nat 10) "".

(** The type switch on the result of [run]. *)
Definition exitTranslate (name : string) (r : option error) : string * Z :=
  match r with
  | None => ("", 0)
  | Some err =>
      if isExitError err then ("", ExitCodeWithDefault err)
      else ((name ++ ": Error: " ++ Error err ++ newline)%string, 3)
  end.

(** [main], from the result of [flags.Parse] on: [parsed] is [None] when
    parsing fails, and otherwise the options with [opts.args] set to the
    remaining arguments. *)
Definition main (env : Env) (fl : SummaryFlags) (w : World)
    (name : string) (parsed : option options) : MainResult :=
  match parsed with
  | None => mkMainResult "" (Exited 1) []
  | Some opts =>
      match exec (setupLogging opts ;; run env fl w opts) with
      | (Ok r, tr) =>
          let '(diag, code) := exitTranslate name r in
          mkMainResult diag (Exited code) tr
      | (Panic msg, tr) => mkMainResult "" (Crashed msg) tr
      end
  end.

(** ** Sample inputs *)

(** Options as [setupFlags] leaves them without flags, with the given
    [--raw-command] and positional arguments. *)
Definition cmdline (raw : bool) (a : list string) : options :=
  mkOptions a "short" false raw "" "" false [].

(** The error [startGoTest] returns, if any: the first of the two pipe
    errors and the start error. *)
Definition launchErr (w : World) : option error :=
  match stdoutPipeErr w with
  | Some e => Some e
  | None =>
      match stderrPipeErr w with
      | Some e => Some e
      | None => startErr w
      end
  end.

(** A world in which every call succeeds and the child exits with 0. *)
Definition calmWorld : World :=
  mkWorld (fun name => ("/usr/bin/" ++ name)%string)
          None None None 4242 None None None None None.

(** The executable cannot be started. *)
Definition spawnFailWorld : World :=
  mkWorld (fun name => name)
          None None (Some (ErrorString "fork/exec nosuch: no such file or directory"))
          0 None None None None None.

(** The standard-output pipe cannot be opened. *)
Definition stdoutPipeFailWorld : World :=
  mkWorld (fun name => name)
          (Some (ErrorString "pipe: too many open files")) None None
          0 None None None None None.

(** The standard-error pipe cannot be opened. *)
Definition stderrPipeFailWorld : World :=
  mkWorld (fun name => name)
          None (Some (ErrorString "pipe: too many open files")) None
          0 None None None None None.

(** The child runs and exits with status 2. *)
Definition failingTestsWorld : World :=
  mkWorld (fun name => ("/usr/bin/" ++ name)%string)
          None None None 4242 None None None None
          (Some (ExitError "exit status 2" (Some 2))).

(** The event handler cannot be set up. *)
Definition handlerFailWorld : World :=
  mkWorld (fun name => name)
          None None None 4242
          (Some (ErrorString "open events.json: permission denied"))
          None None None None.

(** The child writes a line that is not a test event. *)
Definition scanFailWorld : World :=
  mkWorld (fun name => name)
          None None None 4242 None
          (Some (ErrorString "failed to parse test output"))
          None None None.

(** Options asking for a JUnit file. *)
Definition junitOptions : options :=
  mkOptions ["./..."] "short" false false "" "report.xml" false [].

(** ** Sections of a summary value *)




(** ** Reading a trace of [run] *)

Definition isWait (e : Event) : bool :=
  match e with EvWait => true | _ => false end.

Definition isHandlerClose (e : Event) : bool :=
  match e with EvHandlerClose => true | _ => false end.

Definition isPrintSummary (e : Event) : bool :=
  match e with EvPrintSummary _ => true | _ => false end.

Definition isWriteJUnitFile (e : Event) : bool :=
  match e with EvWriteJUnitFile _ => true | _ => false end.

(** The first error, in program order, of the calls [run] makes between
    starting the child and waiting for it: the handler setup, the scan,
    the summary and the JUnit file. *)
Definition reportErr (w : World) : option error :=
  match newEventHandlerErr w with
  | Some e => Some e
  | None =>
      match scanTestOutputErr w with
      | Some e => Some e
      | None =>
          match printSummaryErr w with
          | Some e => Some e
          | None => writeJUnitFileErr w
          end
      end
  end.

(** How often a name occurs in a suppress list. *)
Definition occurrences (l : list string) (name : string) : Z :=
  Z.of_nat (count_occ string_dec l name).

(** * Theorems *)

(** ** Argument composer *)

Section ArgumentComposer.

Variable env : Env.

Lemma hasJSONArg_app (l1 l2 : list string) :
  hasJSONArg (l1 ++ l2) = hasJSONArg l1 || hasJSONArg l2.
Proof.
  induction l1 as [|a l1 IH]; simpl; [reflexivity|].
  destruct (String.eqb a "-json" || String.eqb a "--json"); simpl; auto.
Qed.

(** [hasJSONArg] is the exact token match against both spellings. *)
Lemma hasJSONArg_In (l : list string) :
  hasJSONArg l = true <-> In "-json" l \/ In "--json" l.
Proof.
  induction l as [|a l IH]; simpl.
  - split; [discriminate | intros [[]|[]]].
  - destruct (String.eqb_spec a "-json") as [->|Hn1]; simpl.
    + split; auto.
    + destruct (String.eqb_spec a "--json") as [->|Hn2]; simpl.
      * split; auto.
      * rewrite IH. split.
        -- intros [H|H]; auto.
        -- intros [[H|H]|[H|H]]; auto; congruence.
Qed.

Lemma length_eqb_0 (l : list string) :
  l <> [] -> Nat.eqb (List.length l) 0 = false.
Proof. destruct l; [congruence | reflexivity]. Qed.

(** C1, as the code has it: with raw-command unset and a non-empty
    argument list that already holds "-json" or "--json", the result
    is the base command "go test", then the positional arguments
    unchanged with no "-json" put before them, then the TEST_DIRECTORY
    override when it is set and non-empty.  Composing once more over
    that result injects no flag either; it prepends the base command
    and appends the override again. *)
Theorem goTestCmdArgs_flagged (opts : options) :
  rawCommand opts = false ->
  args opts <> [] ->
  hasJSONArg (args opts) = true ->
  goTestCmdArgs env opts = ["go"; "test"] ++ args opts ++ envSuffix env
  /\ goTestCmdArgs env (withArgs opts (goTestCmdArgs env opts))
     = ["go"; "test"] ++ goTestCmdArgs env opts ++ envSuffix env.
Proof.
  intros Hraw Hne Hjson.
  assert (E : goTestCmdArgs env opts = ["go"; "test"] ++ args opts ++ envSuffix env).
  { unfold goTestCmdArgs, envSuffix.
    rewrite Hraw, (length_eqb_0 _ Hne), Hjson. simpl.
    destruct (String.eqb (pathFromEnv env "") ""); simpl;
      [now rewrite app_nil_r | reflexivity]. }
  split; [exact E|].
  unfold goTestCmdArgs at 1. simpl args. simpl rawCommand.
  rewrite Hraw, E. simpl List.length. simpl Nat.eqb.
  replace (hasJSONArg (["go"; "test"] ++ args opts ++ envSuffix env)) with true.
  - unfold envSuffix. simpl.
    destruct (String.eqb (pathFromEnv env "") ""); simpl;
      [now rewrite !app_nil_r | reflexivity].
  - symmetry. change (hasJSONArg (args opts ++ envSuffix env) = true).
    rewrite hasJSONArg_app, Hjson. reflexivity.
Qed.

(** C6: with raw-command unset and no positional arguments the result
    is exactly "go" "test" "-json" p, where p is the value of
    TEST_DIRECTORY when the variable is set and "./..." otherwise. *)
Theorem goTestCmdArgs_no_args (opts : options) :
  rawCommand opts = false ->
  args opts = [] ->
  goTestCmdArgs env opts
  = ["go"; "test"; "-json";
     match env "TEST_DIRECTORY" with Some p => p | None => "./..." end].
Proof.
  intros Hraw Hargs. unfold goTestCmdArgs.
  rewrite Hraw, Hargs. reflexivity.
Qed.

(** C7: with raw-command set the result is the positional arguments
    verbatim, whatever the environment holds. *)
Theorem goTestCmdArgs_raw (opts : options) :
  rawCommand opts = true ->
  goTestCmdArgs env opts = args opts.
Proof.
  intros Hraw. unfold goTestCmdArgs. now rewrite Hraw.
Qed.

End ArgumentComposer.

(** C1 as stated fails: for the already-flagged arguments "-json" "./pkg"
    the composer does not return the positional arguments, and composing
    twice does not give the result of composing once. *)
Lemma goTestCmdArgs_flagged_not_verbatim :
  let opts := cmdline false ["-json"; "./pkg"] in
  rawCommand opts = false
  /\ hasJSONArg (args opts) = true
  /\ goTestCmdArgs emptyEnv opts = ["go"; "test"; "-json"; "./pkg"]
  /\ goTestCmdArgs emptyEnv opts <> args opts
  /\ goTestCmdArgs emptyEnv (withArgs opts (goTestCmdArgs emptyEnv opts))
     <> goTestCmdArgs emptyEnv opts.
Proof.
  repeat split; try reflexivity; vm_compute; discriminate.
Qed.

Lemma goTestCmdArgs_flagged_witness :
  let env := setEnv "TEST_DIRECTORY" "./internal" emptyEnv in
  let opts := cmdline false ["-v"; "--json"] in
  goTestCmdArgs env opts = ["go"; "test"; "-v"; "--json"; "./internal"]
  /\ goTestCmdArgs env (withArgs opts (goTestCmdArgs env opts))
     = ["go"; "test"; "go"; "test"; "-v"; "--json"; "./internal"; "./internal"].
Proof.
  apply (goTestCmdArgs_flagged
           (setEnv "TEST_DIRECTORY" "./internal" emptyEnv)
           (cmdline false ["-v"; "--json"]));
    [reflexivity | discriminate | reflexivity].
Defined.

Lemma goTestCmdArgs_no_args_witness :
  goTestCmdArgs (setEnv "TEST_DIRECTORY" "./cmd" emptyEnv) (cmdline false [])
  = ["go"; "test"; "-json"; "./cmd"].
Proof.
  apply (goTestCmdArgs_no_args (setEnv "TEST_DIRECTORY" "./cmd" emptyEnv)
           (cmdline false [])); reflexivity.
Defined.

Lemma goTestCmdArgs_raw_witness :
  goTestCmdArgs (setEnv "TEST_DIRECTORY" "./cmd" emptyEnv)
                (cmdline true ["make"; "test"])
  = ["make"; "test"].
Proof.
  apply (goTestCmdArgs_raw (setEnv "TEST_DIRECTORY" "./cmd" emptyEnv)
           (cmdline true ["make"; "test"])); reflexivity.
Defined.

(** ** Process launcher *)

(** Unfolds one run of the launcher or of [run] down to its trace. *)
Ltac run_trace :=
  unfold exec, run, runBody, call, startGoTest, bind, ret, emit, defer,
    panic, runDeferred, cancelFunc, launchErr, countEv in *;
  cbv zeta; simpl in *.

Ltac split_world w :=
  destruct w as [lp so se st pd nh sc ps wj wt]; simpl in *.

(** C8: in [startGoTest], whenever [cmd.Start] is called both pipe calls
    precede it and both succeeded; when opening the standard-output pipe
    fails, or the standard-error pipe after it, that error is returned
    with the pipe call as the last call made, and [cmd.Start] is never
    called. *)
Theorem startGoTest_pipes_before_start (w : World) (args : list string) :
  let r := fst (exec (startGoTest w args)) in
  let tr := snd (exec (startGoTest w args)) in
  (countEv isStart tr <> 0%nat ->
     In EvStdoutPipe (before isStart tr) /\ In EvStderrPipe (before isStart tr)
     /\ stdoutPipeErr w = None /\ stderrPipeErr w = None)
  /\ (forall e, args <> [] -> stdoutPipeErr w = Some e ->
        (exists p, r = Ok (p, Some e))
        /\ countEv isStart tr = 0%nat
        /\ countEv isStderrPipe tr = 0%nat
        /\ last tr EvWithCancel = EvStdoutPipe)
  /\ (forall e, args <> [] -> stdoutPipeErr w = None -> stderrPipeErr w = Some e ->
        (exists p, r = Ok (p, Some e))
        /\ countEv isStart tr = 0%nat
        /\ last tr EvWithCancel = EvStderrPipe).
Proof.
  split_world w. destruct args as [|name rest].
  - run_trace. repeat split; intros; congruence.
  - run_trace.
    destruct so as [e1|]; [|destruct se as [e2|]; [|destruct st as [e3|]]];
      simpl; repeat split; intros;
      repeat match goal with
             | H : Some _ = Some _ |- _ => inversion H; subst; clear H
             end;
      try congruence; try discriminate; eauto 10.
Qed.

Lemma startGoTest_pipes_before_start_witness :
  (In EvStdoutPipe (before isStart (snd (exec (startGoTest calmWorld ["go"; "test"]))))
   /\ In EvStderrPipe (before isStart (snd (exec (startGoTest calmWorld ["go"; "test"])))))
  /\ countEv isStart (snd (exec (startGoTest stdoutPipeFailWorld ["go"; "test"]))) = 0%nat
  /\ countEv isStart (snd (exec (startGoTest stderrPipeFailWorld ["go"; "test"]))) = 0%nat.
Proof.
  split; [|split].
  - destruct (startGoTest_pipes_before_start calmWorld ["go"; "test"]) as [H _].
    destruct H as (H1 & H2 & _); [vm_compute; discriminate | split; assumption].
  - destruct (startGoTest_pipes_before_start stdoutPipeFailWorld ["go"; "test"])
      as (_ & H & _).
    destruct (H (ErrorString "pipe: too many open files")) as (_ & H0 & _);
      [discriminate | reflexivity | exact H0].
  - destruct (startGoTest_pipes_before_start stderrPipeFailWorld ["go"; "test"])
      as (_ & _ & H).
    destruct (H (ErrorString "pipe: too many open files")) as (_ & H0 & _);
      [discriminate | reflexivity | reflexivity | exact H0].
Defined.

(** ** Orchestration *)

Section Orchestration.

Variable env : Env.
Variable fl : SummaryFlags.

(** The result of [run] does not depend on what the caller did before. *)
Lemma run_result_any_frame (w : World) (opts : options) (fr : Frame) :
  fst (run env fl w opts fr) = fst (exec (run env fl w opts)).
Proof.
  split_world w. run_trace.
  destruct (goTestCmdArgs env opts) as [|name rest]; simpl; [reflexivity|].
  destruct so; simpl; [reflexivity|].
  destruct se; simpl; [reflexivity|].
  destruct st; simpl; [reflexivity|].
  destruct nh; simpl; [reflexivity|].
  destruct sc; simpl; [reflexivity|].
  destruct ps; simpl; [reflexivity|].
  destruct wj; simpl; reflexivity.
Qed.

(** C4, as the code has it: once [startGoTest] has succeeded, [run]
    returns an error value on every path (handler setup, scan, summary,
    JUnit file, wait) and the cancellation handle is called exactly once,
    as the last call before [run] returns.  When [startGoTest] returns an
    error (a pipe or the process start failed), [run] returns that error
    wrapped and does not call the handle: its [defer] comes after the
    error check. *)
Theorem run_cancel_after_launch (w : World) (opts : options) :
  goTestCmdArgs env opts <> [] ->
  let r := fst (exec (run env fl w opts)) in
  let tr := snd (exec (run env fl w opts)) in
  match launchErr w with
  | None =>
      (exists e, r = Ok e)
      /\ countEv isCancel tr = 1%nat
      /\ last tr EvWithCancel = EvCancel
  | Some err =>
      (exists p, r = Ok (Some (wrapFailedToRun err p)))
      /\ countEv isCancel tr = 0%nat
  end.
Proof.
  intros Hne. split_world w. run_trace.
  destruct (goTestCmdArgs env opts) as [|name rest]; [congruence|]. simpl.
  destruct so; simpl; [split; eauto|].
  destruct se; simpl; [split; eauto|].
  destruct st; simpl; [split; eauto|].
  destruct nh; simpl; [repeat split; eauto|].
  destruct sc; simpl; [repeat split; eauto|].
  destruct ps; simpl; [repeat split; eauto|].
  destruct wj; simpl; repeat split; eauto.
Qed.

(** C10: with raw-command set and no positional arguments the composed
    vector is empty, [startGoTest] panics on [args[0]] right after
    creating the context, and so [run] panics instead of returning and
    [main] ends in that panic. *)
Theorem run_raw_no_args_panics (w : World) (name : string) (opts : options) :
  rawCommand opts = true ->
  args opts = [] ->
  goTestCmdArgs env opts = []
  /\ exec (startGoTest w (goTestCmdArgs env opts))
     = (Panic "runtime error: index out of range [0] with length 0", [EvWithCancel])
  /\ exec (run env fl w opts)
     = (Panic "runtime error: index out of range [0] with length 0", [EvWithCancel])
  /\ termination (main env fl w name (Some opts))
     = Crashed "runtime error: index out of range [0] with length 0".
Proof.
  intros Hraw Hargs.
  assert (E : goTestCmdArgs env opts = []).
  { unfold goTestCmdArgs. now rewrite Hraw. }
  split; [exact E|]. unfold main, setupLogging.
  run_trace. rewrite E. simpl.
  repeat split. destruct (debug opts), (noColor opts); reflexivity.
Qed.

(** C5: the end of [main].  When [run] returns nil the process ends with
    status 0 and [main] prints nothing; when it returns an
    [*exec.ExitError] carrying the child's exit code the process ends
    with that code and [main] prints nothing; for every other error
    [main] writes the one line "<name>: Error: <message>" to standard
    error and the process ends with status 3. *)
Theorem main_exit_translation (w : World) (name : string) (opts : options) :
  let res := main env fl w name (Some opts) in
  forall r, fst (exec (run env fl w opts)) = Ok r ->
    (r = None -> termination res = Exited 0 /\ diagnostics res = "")
    /\ (forall state code, r = Some (ExitError state (Some code)) ->
          termination res = Exited code /\ diagnostics res = "")
    /\ (forall err, r = Some err -> isExitError err = false ->
          termination res = Exited 3
          /\ diagnostics res = (name ++ ": Error: " ++ Error err ++ newline)%string).
Proof.
  intros res r Hr. subst res. unfold main.
  assert (E : fst (exec (setupLogging opts;; run env fl w opts)) = Ok r).
  { unfold exec at 1, bind.
    destruct (setupLogging opts (mkFrame [] [])) as [[[]|msg] fr0] eqn:Es.
    - pose proof (run_result_any_frame w opts fr0) as Hf.
      destruct (run env fl w opts fr0) as [r0 fr1]. simpl in *. congruence.
    - exfalso. unfold setupLogging, bind, emit, ret in Es.
      destruct (debug opts), (noColor opts); discriminate. }
  destruct (exec (setupLogging opts;; run env fl w opts)) as [r0 tr0].
  simpl in E. subst r0.
  repeat split; intros; subst; simpl.
  - reflexivity.
  - reflexivity.
  - reflexivity.
  - reflexivity.
  - unfold exitTranslate. rewrite H0. reflexivity.
  - unfold exitTranslate. rewrite H0. reflexivity.
Qed.

End Orchestration.

(** C4 as stated fails on the process-spawn failure path: [run] returns
    the wrapped start error and the trace holds no call of the
    cancellation handle. *)
Lemma run_spawn_failure_skips_cancel :
  let res := exec (run emptyEnv iotaFlags spawnFailWorld (cmdline false [])) in
  res = (Ok (Some (WithMessage
                     (ErrorString "fork/exec nosuch: no such file or directory")
                     "failed to run go go test -json ./...")),
         [EvWithCancel; EvCommandContext "go" ["test"; "-json"; "./..."];
          EvDebugExec ["go"; "test"; "-json"; "./..."];
          EvStdoutPipe; EvStderrPipe; EvStart])
  /\ ~ In EvCancel (snd res).
Proof.
  split; [reflexivity|].
  simpl. intros H. repeat (destruct H as [H|H]; [discriminate|]). exact H.
Qed.

Lemma run_cancel_after_launch_witness :
  countEv isCancel
    (snd (exec (run emptyEnv iotaFlags failingTestsWorld (cmdline false ["./..."]))))
  = 1%nat
  /\ countEv isCancel
       (snd (exec (run emptyEnv iotaFlags stderrPipeFailWorld (cmdline false ["./..."]))))
     = 0%nat.
Proof.
  split.
  - apply (run_cancel_after_launch emptyEnv iotaFlags failingTestsWorld
             (cmdline false ["./..."])).
    discriminate.
  - apply (run_cancel_after_launch emptyEnv iotaFlags stderrPipeFailWorld
             (cmdline false ["./..."])).
    discriminate.
Defined.

Lemma run_raw_no_args_panics_witness :
  exec (run emptyEnv iotaFlags calmWorld (cmdline true []))
  = (Panic "runtime error: index out of range [0] with length 0", [EvWithCancel]).
Proof.
  apply (run_raw_no_args_panics emptyEnv iotaFlags calmWorld "gotestsum"
           (cmdline true [])); reflexivity.
Defined.

Lemma main_exit_translation_witness :
  (termination (main emptyEnv iotaFlags calmWorld "gotestsum" (Some (cmdline false [])))
   = Exited 0)
  /\ (termination (main emptyEnv iotaFlags failingTestsWorld "gotestsum"
                     (Some (cmdline false [])))
      = Exited 2
      /\ diagnostics (main emptyEnv iotaFlags failingTestsWorld "gotestsum"
                        (Some (cmdline false [])))
         = "")
  /\ (termination (main emptyEnv iotaFlags spawnFailWorld "gotestsum"
                     (Some (cmdline true ["nosuch"])))
      = Exited 3
      /\ diagnostics (main emptyEnv iotaFlags spawnFailWorld "gotestsum"
                        (Some (cmdline true ["nosuch"])))
         = ("gotestsum: Error: failed to run nosuch nosuch: "
            ++ "fork/exec nosuch: no such file or directory" ++ newline)%string).
Proof.
  split; [|split].
  - destruct (main_exit_translation emptyEnv iotaFlags calmWorld "gotestsum"
                (cmdline false []) None eq_refl) as (H & _ & _).
    apply H. reflexivity.
  - destruct (main_exit_translation emptyEnv iotaFlags failingTestsWorld "gotestsum"
                (cmdline false []) (Some (ExitError "exit status 2" (Some 2)))
                eq_refl) as (_ & H & _).
    apply (H "exit status 2" 2). reflexivity.
  - destruct (main_exit_translation emptyEnv iotaFlags spawnFailWorld "gotestsum"
                (cmdline true ["nosuch"])
                (Some (WithMessage
                         (ErrorString "fork/exec nosuch: no such file or directory")
                         "failed to run nosuch nosuch"))
                eq_refl) as (_ & _ & H).
    apply (H _ eq_refl). reflexivity.
Defined.

(** ** Summary policy *)

(** *** Wrap-around *)

Lemma int_wrap_small (z : Z) :
  - 2 ^ 63 <= z < 2 ^ 63 -> int_wrap z = z.
Proof.
  intros H. unfold int_wrap, intSize.
  change (2 ^ (64 - 1)) with (2 ^ 63). change (2 ^ 64) with (2 * 2 ^ 63).
  rewrite Z.mod_small; lia.
Qed.

Lemma int_wrap_sub (a b : Z) : int_wrap (int_wrap a - b) = int_wrap (a - b).
Proof.
  unfold int_wrap.
  set (h := 2 ^ (intSize - 1)). set (m := 2 ^ intSize).
  replace ((a + h) mod m - h - b + h) with ((a + h) mod m - b) by lia.
  rewrite Zminus_mod_idemp_l. do 2 f_equal. lia.
Qed.

Lemma int_wrap_idem (a : Z) : int_wrap (int_wrap a) = int_wrap a.
Proof.
  pose proof (int_wrap_sub a 0) as H. now rewrite !Z.sub_0_r in H.
Qed.

(** *** Bits *)

Lemma land_pow2 (s k : Z) :
  0 <= k -> Z.land s (2 ^ k) = if Z.testbit s k then 2 ^ k else 0.
Proof.
  intros Hk. apply Z.bits_inj'. intros i Hi.
  rewrite Z.land_spec, Z.pow2_bits_eqb by assumption.
  destruct (Z.testbit s k) eqn:E.
  - rewrite Z.pow2_bits_eqb by assumption.
    destruct (Z.eqb_spec k i) as [->|]; [now rewrite E | apply andb_false_r].
  - rewrite Z.bits_0.
    destruct (Z.eqb_spec k i) as [->|]; [now rewrite E | apply andb_false_r].
Qed.

Lemma includes_pow2 (s k : Z) :
  0 <= k -> includes s (2 ^ k) = Z.testbit s k.
Proof.
  intros Hk. unfold includes. rewrite land_pow2 by assumption.
  destruct (Z.testbit s k); [|reflexivity].
  assert (0 < 2 ^ k) by (apply Z.pow_pos_nonneg; lia).
  destruct (Z.eqb_spec (2 ^ k) 0); [lia | reflexivity].
Qed.

(** Subtracting a flag that is set clears its bit and no other. *)
Lemma sub_pow2_set (s k : Z) :
  0 <= k -> Z.testbit s k = true -> s - 2 ^ k = Z.ldiff s (2 ^ k).
Proof.
  intros Hk Hb. apply Z.sub_nocarry_ldiff.
  apply Z.bits_inj'. intros i Hi.
  rewrite Z.ldiff_spec, Z.pow2_bits_eqb, Z.bits_0 by assumption.
  destruct (Z.eqb_spec k i) as [->|]; [now rewrite Hb | reflexivity].
Qed.

(** Subtracting a power of two leaves the bits below it as they are. *)
Lemma testbit_sub_pow2_above (a n k : Z) :
  0 <= k < n -> Z.testbit (a - 2 ^ n) k = Z.testbit a k.
Proof.
  intros H.
  rewrite <- (Z.mod_pow2_bits_low (a - 2 ^ n) n k) by lia.
  rewrite <- (Z.mod_pow2_bits_low a n k) by lia.
  f_equal. replace (a - 2 ^ n) with (a + (-1) * 2 ^ n) by ring.
  apply Z.mod_add. assert (0 < 2 ^ n) by (apply Z.pow_pos_nonneg; lia). lia.
Qed.

(** A bit that is set in a non-negative number is at most that number. *)
Lemma testbit_pow2_le (a k : Z) :
  0 <= a -> 0 <= k -> Z.testbit a k = true -> 2 ^ k <= a.
Proof.
  intros Ha Hk Hb. destruct (Z.lt_ge_cases a (2 ^ k)) as [Hlt|]; [|assumption].
  exfalso. destruct (Z.eq_dec a 0) as [->|Hn].
  - rewrite Z.bits_0 in Hb. discriminate.
  - rewrite Z.bits_above_log2 in Hb; [discriminate | assumption |].
    apply Z.log2_lt_pow2; lia.
Qed.

Lemma ldiff_pow2_testbit (s k i : Z) :
  0 <= k -> 0 <= i ->
  Z.testbit (Z.ldiff s (2 ^ k)) i = Z.testbit s i && negb (k =? i).
Proof.
  intros Hk Hi. now rewrite Z.ldiff_spec, Z.pow2_bits_eqb.
Qed.

(** *** The flag constants *)

Lemma pow2_lt_62 (k : Z) : 0 <= k < 62 -> 0 < 2 ^ k < 2 ^ 62.
Proof.
  intros H. split; [apply Z.pow_pos_nonneg; lia | apply Z.pow_lt_mono_r; lia].
Qed.

Lemma isFlagOf_spec (all f : Z) :
  isFlagOf all f = true ->
  exists k, 0 <= k < 62 /\ f = 2 ^ k /\ Z.testbit all k = true.
Proof.
  unfold isFlagOf, intSize. rewrite !andb_true_iff.
  intros [[[H1 H2] H3] H4]. exists (Z.log2 f).
  apply Z.ltb_lt in H3. apply Z.eqb_eq in H2.
  pose proof (Z.log2_nonneg f). repeat split; auto; lia.
Qed.

Section SummaryPolicy.

Variable fl : SummaryFlags.
Hypothesis flags_ok : flagsOk fl = true.

Let All := SummarizeAll fl.

Lemma all_range : 0 <= All < 2 ^ 62.
Proof.
  revert flags_ok. unfold flagsOk, intSize, All. rewrite !andb_true_iff.
  intros [[[[[[[H1 H2] _] _] _] _] _] _].
  apply Z.leb_le in H1. apply Z.ltb_lt in H2. change (64 - 2) with 62 in H2. lia.
Qed.

Lemma flags_spec :
  exists kS kF kE,
    (0 <= kS < 62 /\ SummarizeSkipped fl = 2 ^ kS /\ Z.testbit All kS = true)
    /\ (0 <= kF < 62 /\ SummarizeFailed fl = 2 ^ kF /\ Z.testbit All kF = true)
    /\ (0 <= kE < 62 /\ SummarizeErrors fl = 2 ^ kE /\ Z.testbit All kE = true)
    /\ kS <> kF /\ kS <> kE /\ kF <> kE.
Proof.
  revert flags_ok. unfold flagsOk. rewrite !andb_true_iff, !negb_true_iff.
  intros [[[[[[_ HS] HF] HE] N1] N2] N3].
  destruct (isFlagOf_spec _ _ HS) as (kS & RS & ES & BS).
  destruct (isFlagOf_spec _ _ HF) as (kF & RF & EF & BF).
  destruct (isFlagOf_spec _ _ HE) as (kE & RE & EE & BE).
  exists kS, kF, kE. fold All in BS, BF, BE.
  apply Z.eqb_neq in N1, N2, N3.
  repeat split; auto; try lia; intros ->; congruence.
Qed.

Lemma flagOf_recognized (item : string) :
  recognized item = true ->
  exists k, 0 <= k < 62 /\ flagOf fl item = 2 ^ k /\ Z.testbit All k = true.
Proof.
  destruct flags_spec as (kS & kF & kE & HS & HF & HE & _).
  unfold recognized, flagOf.
  destruct (String.eqb item "failed"); [intros _; exists kF; tauto|].
  destruct (String.eqb item "skipped"); [intros _; exists kS; tauto|].
  destruct (String.eqb item "errors"); [intros _; exists kE; tauto|].
  discriminate.
Qed.

Lemma flagOf_unrecognized (item : string) :
  recognized item = false -> flagOf fl item = 0.
Proof.
  unfold recognized, flagOf.
  destruct (String.eqb item "failed"); [discriminate|].
  destruct (String.eqb item "skipped"); [discriminate|].
  destruct (String.eqb item "errors"); [discriminate|reflexivity].
Qed.

Lemma flagOf_range (item : string) : 0 <= flagOf fl item < 2 ^ 62.
Proof.
  destruct (recognized item) eqn:E.
  - destruct (flagOf_recognized item E) as (k & Hk & -> & _).
    pose proof (pow2_lt_62 k Hk). lia.
  - rewrite (flagOf_unrecognized item E). lia.
Qed.

(** *** The loop *)

(** An entry with any other name leaves the value as it is. *)
Lemma summarizerStep_unrecognized (s : Z) (item : string) :
  recognized item = false -> summarizerStep fl s item = s.
Proof.
  unfold recognized, summarizerStep.
  destruct (String.eqb item "failed"); [discriminate|].
  destruct (String.eqb item "skipped"); [discriminate|].
  destruct (String.eqb item "errors"); [discriminate|reflexivity].
Qed.

Lemma summarizerStep_recognized (s : Z) (item : string) :
  recognized item = true ->
  summarizerStep fl s item = int_wrap (s - flagOf fl item).
Proof.
  unfold recognized, summarizerStep, flagOf, int_sub.
  destruct (String.eqb item "failed"); [reflexivity|].
  destruct (String.eqb item "skipped"); [reflexivity|].
  destruct (String.eqb item "errors"); [reflexivity|discriminate].
Qed.

Lemma summarizerStep_wrap (s : Z) (item : string) :
  int_wrap s = s ->
  summarizerStep fl s item = int_wrap (s - flagOf fl item).
Proof.
  intros Hs. destruct (recognized item) eqn:E.
  - now apply summarizerStep_recognized.
  - rewrite summarizerStep_unrecognized, flagOf_unrecognized, Z.sub_0_r by assumption.
    now symmetry.
Qed.

Lemma fold_summarizerStep (l : list string) (s : Z) :
  int_wrap s = s ->
  fold_left (summarizerStep fl) l s = int_wrap (s - total fl l).
Proof.
  revert s. induction l as [|a l IH]; intros s Hs; simpl.
  - now rewrite Z.sub_0_r.
  - rewrite IH.
    + rewrite (summarizerStep_wrap s a Hs), int_wrap_sub. f_equal. lia.
    + rewrite (summarizerStep_wrap s a Hs). apply int_wrap_idem.
Qed.

(** The loop as one subtraction: the base value minus the sum of the
    flags of all entries, counted as often as they occur. *)
Lemma summarizer_total (opts : options) :
  summarizer fl opts = int_wrap (All - total fl (noSummary opts)).
Proof.
  unfold summarizer. apply fold_summarizerStep.
  apply int_wrap_small. pose proof all_range. fold All. lia.
Qed.

Lemma summarizer_total_small (opts : options) :
  0 <= total fl (noSummary opts) <= All + 2 ^ 63 ->
  summarizer fl opts = All - total fl (noSummary opts).
Proof.
  intros H. rewrite summarizer_total. apply int_wrap_small.
  pose proof all_range. lia.
Qed.

Lemma total_perm (l l' : list string) :
  Permutation l l' -> total fl l = total fl l'.
Proof.
  induction 1; simpl; lia.
Qed.

(** The order of the suppress list does not matter. *)
Lemma summarizer_perm (l l' : list string) :
  Permutation l l' ->
  summarizer fl (suppress l) = summarizer fl (suppress l').
Proof.
  intros H. rewrite !summarizer_total. simpl. now rewrite (total_perm l l' H).
Qed.

Lemma total_repeat (item : string) (n : nat) :
  total fl (repeat item n) = Z.of_nat n * flagOf fl item.
Proof.
  induction n as [|n IH]; [reflexivity|].
  simpl repeat. simpl total. fold (total fl (repeat item n)). rewrite IH. lia.
Qed.

(** *** Lists without repeated entries *)

Lemma flagOf_pos_recognized (item : string) (k : Z) :
  0 <= k -> flagOf fl item = 2 ^ k -> recognized item = true.
Proof.
  intros Hk E. destruct (recognized item) eqn:R; [reflexivity|].
  rewrite (flagOf_unrecognized item R) in E.
  assert (0 < 2 ^ k) by (apply Z.pow_pos_nonneg; lia). lia.
Qed.

(** Different recognized names have different flags. *)
Lemma flagOf_inj (a b : string) :
  recognized a = true -> recognized b = true ->
  flagOf fl a = flagOf fl b -> a = b.
Proof.
  destruct flags_spec
    as (kS & kF & kE & (RS & ES & _) & (RF & EF & _) & (RE & EE & _) & N1 & N2 & N3).
  assert (P : forall x y, 0 <= x -> 0 <= y -> 2 ^ x = 2 ^ y -> x = y)
    by (intros x y Hx Hy; apply Z.pow_inj_r; lia).
  unfold recognized, flagOf. rewrite ES, EF, EE.
  destruct (String.eqb_spec a "failed") as [->|]; simpl;
    [|destruct (String.eqb_spec a "skipped") as [->|]; simpl;
      [|destruct (String.eqb_spec a "errors") as [->|]; simpl; [|discriminate]]];
    (destruct (String.eqb_spec b "failed") as [->|]; simpl;
     [|destruct (String.eqb_spec b "skipped") as [->|]; simpl;
       [|destruct (String.eqb_spec b "errors") as [->|]; simpl; [|discriminate]]]);
    intros _ _ E; try reflexivity; exfalso;
    apply P in E; try lia; congruence.
Qed.

Lemma pow2_eqb (k i : Z) : 0 <= k -> 0 <= i -> (2 ^ k =? 2 ^ i) = (k =? i).
Proof.
  intros Hk Hi. destruct (Z.eqb_spec k i) as [->|N]; [apply Z.eqb_refl|].
  apply Z.eqb_neq. intros E. apply Z.pow_inj_r in E; lia.
Qed.

(** On a list without repeated entries the loop clears, bit by bit,
    exactly the flags of its entries. *)
Lemma fold_summarizerStep_nodup (l : list string) :
  NoDup l ->
  forall s, 0 <= s < 2 ^ 62 ->
  (forall item k, In item l -> 0 <= k -> flagOf fl item = 2 ^ k ->
                  Z.testbit s k = true) ->
  forall i, 0 <= i ->
  Z.testbit (fold_left (summarizerStep fl) l s) i
  = Z.testbit s i && negb (existsb (fun item => flagOf fl item =? 2 ^ i) l).
Proof.
  induction 1 as [|a l Hnin Hnd IH]; intros s Hs Hbits i Hi; simpl.
  - now rewrite andb_true_r.
  - destruct (recognized a) eqn:Ra.
    + destruct (flagOf_recognized a Ra) as (k & Rk & Ek & _).
      assert (Bk : Z.testbit s k = true)
        by (apply (Hbits a k); [now left | lia | exact Ek]).
      pose proof (testbit_pow2_le s k (proj1 Hs) (proj1 Rk) Bk) as Lk.
      assert (Es : summarizerStep fl s a = Z.ldiff s (2 ^ k)).
      { rewrite (summarizerStep_recognized s a Ra), Ek, int_wrap_small by lia.
        apply sub_pow2_set; [lia | exact Bk]. }
      rewrite Es. rewrite IH; try assumption.
      * rewrite ldiff_pow2_testbit, Ek, pow2_eqb by lia.
        rewrite negb_orb. now rewrite andb_assoc.
      * rewrite <- (sub_pow2_set s k) by (lia || assumption). lia.
      * intros item k' Hin Hk' Ek'.
        rewrite ldiff_pow2_testbit by lia.
        rewrite (Hbits item k') by (auto; now right).
        destruct (Z.eqb_spec k k') as [->|]; [|reflexivity].
        exfalso. apply Hnin.
        assert (item = a) as <-; [|exact Hin].
        apply flagOf_inj; [eapply flagOf_pos_recognized; eauto | exact Ra | congruence].
    + rewrite (summarizerStep_unrecognized s a Ra), (flagOf_unrecognized a Ra).
      assert (0 < 2 ^ i) by (apply Z.pow_pos_nonneg; lia).
      destruct (Z.eqb_spec 0 (2 ^ i)); [lia|]. simpl.
      apply IH; auto. intros item k Hin. apply Hbits. now right.
Qed.

Lemma summarizer_nodup_testbit (l : list string) (i : Z) :
  NoDup l -> 0 <= i ->
  Z.testbit (summarizer fl (suppress l)) i
  = Z.testbit All i && negb (existsb (fun item => flagOf fl item =? 2 ^ i) l).
Proof.
  intros Hnd Hi. unfold summarizer. simpl noSummary.
  apply fold_summarizerStep_nodup; auto using all_range.
  intros item k _ Hk Ek.
  destruct (flagOf_recognized item (flagOf_pos_recognized item k Hk Ek))
    as (k0 & Rk0 & Ek0 & Bk0).
  assert (k0 = k) as <-; [|exact Bk0].
  apply (Z.pow_inj_r 2); solve [lia | congruence].
Qed.

(** Without repeated entries the result is a subset of the base set. *)
Lemma summarizer_nodup_subset (l : list string) :
  NoDup l ->
  sectionsSubset (summarizer fl (suppress l)) All = true.
Proof.
  intros Hnd. unfold sectionsSubset. apply Z.eqb_eq.
  apply Z.bits_inj'. intros i Hi.
  rewrite Z.land_spec, summarizer_nodup_testbit by assumption.
  destruct (Z.testbit All i); simpl; [apply andb_true_r | reflexivity].
Qed.

(** Without repeated entries every recognized entry removes its section. *)
Lemma summarizer_nodup_removes (l : list string) (item : string) :
  NoDup l -> In item l -> recognized item = true ->
  includes (summarizer fl (suppress l)) (flagOf fl item) = false.
Proof.
  intros Hnd Hin Hrec.
  destruct (flagOf_recognized item Hrec) as (k & Rk & Ek & Bk).
  rewrite Ek, includes_pow2, summarizer_nodup_testbit by (lia || assumption).
  rewrite Bk. simpl. apply negb_false_iff.
  apply existsb_exists. exists item. split; [exact Hin|].
  rewrite Ek. apply Z.eqb_refl.
Qed.

(** *** Entries that occur more than once *)

(** C2 at the duplicated list: suppressing "failed", "skipped", "failed"
    does not give the value of suppressing "failed", "skipped".  The
    second "failed" is subtracted again, which borrows from the higher
    bits and sets the failed bit once more: the failed section is enabled
    in the first value and disabled in the second. *)
Theorem summarizer_duplicate_changes_sections :
  summarizer fl (suppress ["failed"; "skipped"; "failed"])
  <> summarizer fl (suppress ["failed"; "skipped"])
  /\ includes (summarizer fl (suppress ["failed"; "skipped"; "failed"]))
              (SummarizeFailed fl) = true
  /\ includes (summarizer fl (suppress ["failed"; "skipped"]))
              (SummarizeFailed fl) = false.
Proof.
  destruct flags_spec as (kS & kF & kE & (RS & ES & BS) & (RF & EF & BF) & _ & NSF & _).
  pose proof (pow2_lt_62 kS RS) as PS. pose proof (pow2_lt_62 kF RF) as PF.
  pose proof all_range as RA.
  pose proof (testbit_pow2_le All kS (proj1 RA) (proj1 RS) BS) as LS.
  pose proof (testbit_pow2_le All kF (proj1 RA) (proj1 RF) BF) as LF.
  assert (E3 : summarizer fl (suppress ["failed"; "skipped"; "failed"])
               = All - (2 ^ kF + (2 ^ kS + (2 ^ kF + 0)))).
  { rewrite summarizer_total_small; cbn [noSummary suppress total fold_right];
      change (flagOf fl "failed") with (SummarizeFailed fl);
      change (flagOf fl "skipped") with (SummarizeSkipped fl);
      rewrite ?ES, ?EF; lia. }
  assert (E2 : summarizer fl (suppress ["failed"; "skipped"])
               = All - (2 ^ kF + (2 ^ kS + 0))).
  { rewrite summarizer_total_small; cbn [noSummary suppress total fold_right];
      change (flagOf fl "failed") with (SummarizeFailed fl);
      change (flagOf fl "skipped") with (SummarizeSkipped fl);
      rewrite ?ES, ?EF; lia. }
  rewrite E3, E2, EF.
  split; [lia|]. rewrite !includes_pow2 by lia. split.
  - replace (All - (2 ^ kF + (2 ^ kS + (2 ^ kF + 0))))
      with (All - 2 ^ kS - 2 ^ (kF + 1))
      by (rewrite Z.pow_add_r, Z.pow_1_r by lia; lia).
    rewrite testbit_sub_pow2_above by lia.
    rewrite (sub_pow2_set All kS) by (lia || assumption).
    rewrite ldiff_pow2_testbit by lia. rewrite BF.
    destruct (Z.eqb_spec kS kF); [congruence | reflexivity].
  - replace (All - (2 ^ kF + (2 ^ kS + 0))) with (All - 2 ^ kF - 2 ^ kS) by lia.
    rewrite (sub_pow2_set All kF) by (lia || assumption).
    rewrite (sub_pow2_set _ kS).
    + rewrite !ldiff_pow2_testbit by lia. rewrite Z.eqb_refl.
      now rewrite andb_false_r.
    + lia.
    + rewrite ldiff_pow2_testbit by lia. rewrite BS.
      destruct (Z.eqb_spec kF kS); [congruence | reflexivity].
Qed.

(** Bit by bit the value can leave the base mask: when "errors" occurs
    so often that the subtracted flags exceed the base value, the result
    is the negative number [All - n * SummarizeErrors].  The bits it has
    outside the base mask are the flag of no section. *)
Theorem summarizer_repeats_leave_base (n : nat) :
  SummarizeAll fl < Z.of_nat n * SummarizeErrors fl <= 2 ^ 62 ->
  summarizer fl (suppress (repeat "errors" n))
  = SummarizeAll fl - Z.of_nat n * SummarizeErrors fl
  /\ sectionsSubset (summarizer fl (suppress (repeat "errors" n)))
                    (SummarizeAll fl) = false.
Proof.
  intros H. pose proof all_range as RA. fold All in H.
  assert (E : summarizer fl (suppress (repeat "errors" n))
              = All - Z.of_nat n * SummarizeErrors fl).
  { rewrite summarizer_total_small; cbn [noSummary suppress];
      rewrite total_repeat;
      change (flagOf fl "errors") with (SummarizeErrors fl); lia. }
  split; [exact E|]. rewrite E. unfold sectionsSubset. fold All.
  apply Z.eqb_neq. intros Hland.
  assert (0 <= Z.land (All - Z.of_nat n * SummarizeErrors fl) All)
    by (apply Z.land_nonneg; lia).
  lia.
Qed.


(** C9 at a recognized entry that occurs twice: after "failed", "failed"
    (and likewise for "skipped" and for "errors") the section that the
    entry names is still enabled. *)
Theorem summarizer_repeated_entry_keeps_section (item : string) :
  recognized item = true ->
  includes (summarizer fl (suppress [item; item])) (flagOf fl item) = true.
Proof.
  intros Hrec. destruct (flagOf_recognized item Hrec) as (k & Rk & Ek & Bk).
  pose proof (pow2_lt_62 k Rk) as Pk. pose proof all_range as RA.
  pose proof (testbit_pow2_le All k (proj1 RA) (proj1 Rk) Bk) as Lk.
  assert (E : summarizer fl (suppress [item; item]) = All - (2 ^ k + (2 ^ k + 0))).
  { rewrite summarizer_total_small; cbn [noSummary suppress total fold_right];
      rewrite Ek; lia. }
  rewrite E, Ek, includes_pow2 by lia.
  replace (All - (2 ^ k + (2 ^ k + 0))) with (All - 2 ^ (k + 1))
    by (rewrite Z.pow_add_r, Z.pow_1_r by lia; lia).
  rewrite testbit_sub_pow2_above by lia. exact Bk.
Qed.

End SummaryPolicy.

Lemma summarizer_duplicate_changes_sections_witness :
  summarizer iotaFlags (suppress ["failed"; "skipped"; "failed"]) = 10
  /\ summarizer iotaFlags (suppress ["failed"; "skipped"]) = 12
  /\ includes (summarizer iotaFlags (suppress ["failed"; "skipped"; "failed"]))
              (SummarizeFailed iotaFlags) = true.
Proof.
  split; [reflexivity | split; [reflexivity|]].
  apply (summarizer_duplicate_changes_sections iotaFlags). reflexivity.
Defined.

Lemma summarizer_repeats_leave_base_witness :
  summarizer iotaFlags (suppress ["errors"; "errors"; "errors"; "errors"]) = -1
  /\ sectionsSubset
       (summarizer iotaFlags (suppress ["errors"; "errors"; "errors"; "errors"]))
       (SummarizeAll iotaFlags) = false.
Proof.
  apply (summarizer_repeats_leave_base iotaFlags eq_refl 4). simpl. lia.
Defined.


Lemma summarizer_repeated_entry_keeps_section_witness :
  summarizer threeFlags (suppress ["failed"; "failed"]) = 3
  /\ includes (summarizer threeFlags (suppress ["failed"; "failed"]))
              (SummarizeFailed threeFlags) = true.
Proof.
  split; [reflexivity|].
  apply (summarizer_repeated_entry_keeps_section threeFlags eq_refl "failed").
  reflexivity.
Defined.

(** * Further properties of main.go *)

(** ** Argument composer: the remaining branch and the shape of the result *)

Section ComposerShape.

Variable env : Env.

(** With raw-command unset and positional arguments that hold neither
    "-json" nor "--json", the result is "go" "test" "-json", then the
    arguments unchanged, then the TEST_DIRECTORY override when it is set
    and non-empty. *)
Theorem goTestCmdArgs_injects_json (opts : options) :
  rawCommand opts = false ->
  args opts <> [] ->
  hasJSONArg (args opts) = false ->
  goTestCmdArgs env opts = ["go"; "test"; "-json"] ++ args opts ++ envSuffix env.
Proof.
  intros Hraw Hne Hjson. unfold goTestCmdArgs, envSuffix.
  rewrite Hraw, (length_eqb_0 _ Hne), Hjson. simpl.
  destruct (String.eqb (pathFromEnv env "") ""); simpl;
    [now rewrite app_nil_r | reflexivity].
Qed.

Lemma goTestCmdArgs_nonraw_head (opts : options) :
  rawCommand opts = false ->
  exists rest, goTestCmdArgs env opts = "go" :: "test" :: rest.
Proof.
  intros Hraw. unfold goTestCmdArgs. rewrite Hraw.
  destruct (args opts) as [|a l]; [eexists; reflexivity|].
  cbn [List.length Nat.eqb].
  destruct (negb (hasJSONArg (a :: l))); eexists; reflexivity.
Qed.

(** Whenever raw-command is unset the composed command starts with
    "go" "test" and holds a structured-output flag, whatever the
    arguments and the environment are. *)
Theorem goTestCmdArgs_nonraw_has_json (opts : options) :
  rawCommand opts = false ->
  (exists rest, goTestCmdArgs env opts = "go" :: "test" :: rest)
  /\ hasJSONArg (goTestCmdArgs env opts) = true.
Proof.
  intros Hraw. split; [now apply goTestCmdArgs_nonraw_head|].
  unfold goTestCmdArgs. rewrite Hraw.
  destruct (args opts) as [|a l]; [reflexivity|].
  cbn [List.length Nat.eqb].
  destruct (hasJSONArg (a :: l)) eqn:Hj; cbn [negb]; [|reflexivity].
  change (hasJSONArg
            (if negb (String.eqb (pathFromEnv env "") "")
             then (a :: l) ++ [pathFromEnv env ""] else a :: l) = true).
  destruct (negb (String.eqb (pathFromEnv env "") ""));
    [rewrite hasJSONArg_app, Hj|]; auto.
Qed.

(** In every mode the positional arguments appear in the result
    unchanged and in order; with raw-command set nothing stands before
    or after them. *)
Theorem goTestCmdArgs_keeps_args (opts : options) :
  exists pre post,
    goTestCmdArgs env opts = pre ++ args opts ++ post
    /\ (rawCommand opts = true -> pre = [] /\ post = []).
Proof.
  unfold goTestCmdArgs. destruct (rawCommand opts).
  - exists [], []. now rewrite app_nil_r.
  - destruct (args opts) as [|a l].
    + exists ["go"; "test"; "-json"; pathFromEnv env "./..."], [].
      split; [reflexivity | discriminate].
    + cbn [List.length Nat.eqb].
      exists (if negb (hasJSONArg (a :: l))
              then ["go"; "test"] ++ ["-json"] else ["go"; "test"]),
             (if negb (String.eqb (pathFromEnv env "") "")
              then [pathFromEnv env ""] else []).
      split; [|discriminate].
      destruct (negb (String.eqb (pathFromEnv env "") ""));
        [reflexivity | now rewrite app_nil_r].
Qed.

(** TEST_DIRECTORY set to the empty string: without positional
    arguments the empty string replaces "./..." as the path; with
    positional arguments nothing is appended. *)
Theorem goTestCmdArgs_empty_override (opts : options) :
  env "TEST_DIRECTORY" = Some "" ->
  rawCommand opts = false ->
  goTestCmdArgs env opts
  = match args opts with
    | [] => ["go"; "test"; "-json"; ""]
    | _ :: _ =>
        ["go"; "test"]
        ++ (if hasJSONArg (args opts) then [] else ["-json"])
        ++ args opts
    end.
Proof.
  intros Henv Hraw. unfold goTestCmdArgs, pathFromEnv, lookEnvWithDefault.
  rewrite Hraw, Henv. destruct (args opts) as [|a l]; [reflexivity|].
  cbn [List.length Nat.eqb String.eqb negb].
  destruct (hasJSONArg (a :: l)); reflexivity.
Qed.

(** The composed vector is empty only for raw-command with no
    positional arguments. *)
Lemma goTestCmdArgs_nil_iff (opts : options) :
  goTestCmdArgs env opts = [] <-> rawCommand opts = true /\ args opts = [].
Proof.
  split.
  - intros E. destruct (rawCommand opts) eqn:Hraw.
    + unfold goTestCmdArgs in E. rewrite Hraw in E. auto.
    + destruct (goTestCmdArgs_nonraw_head opts Hraw) as [rest Hr].
      congruence.
  - intros [Hraw Hargs]. unfold goTestCmdArgs. now rewrite Hraw.
Qed.

End ComposerShape.

Lemma goTestCmdArgs_injects_json_witness :
  goTestCmdArgs (setEnv "TEST_DIRECTORY" "./internal" emptyEnv)
                (cmdline false ["-run"; "TestFoo"])
  = ["go"; "test"; "-json"; "-run"; "TestFoo"; "./internal"].
Proof.
  apply (goTestCmdArgs_injects_json
           (setEnv "TEST_DIRECTORY" "./internal" emptyEnv)
           (cmdline false ["-run"; "TestFoo"]));
    [reflexivity | discriminate | reflexivity].
Defined.

Lemma goTestCmdArgs_nonraw_has_json_witness :
  hasJSONArg (goTestCmdArgs emptyEnv (cmdline false ["-v"; "./pkg"])) = true.
Proof.
  apply (goTestCmdArgs_nonraw_has_json emptyEnv (cmdline false ["-v"; "./pkg"])).
  reflexivity.
Defined.

Lemma goTestCmdArgs_empty_override_witness :
  goTestCmdArgs (setEnv "TEST_DIRECTORY" "" emptyEnv) (cmdline false ["-v"])
  = ["go"; "test"; "-json"; "-v"].
Proof.
  apply (goTestCmdArgs_empty_override (setEnv "TEST_DIRECTORY" "" emptyEnv)
           (cmdline false ["-v"])); reflexivity.
Defined.

(** ** Process launcher and orchestration: results and call order *)

(** Whatever the outcome, [startGoTest] hands back the handle with the
    attempted command: its arguments are the given vector, its path the
    resolved first element, the error is the first failing call's, and a
    reader is set exactly for the pipes that were opened. *)
Theorem startGoTest_returns_command (w : World) (name : string) (rest : list string) :
  exists p,
    fst (exec (startGoTest w (name :: rest))) = Ok (p, launchErr w)
    /\ Args (cmd p) = name :: rest
    /\ Path (cmd p) = lookPath w name
    /\ stdout p = match stdoutPipeErr w with
                  | None => Some StdoutReader
                  | Some _ => None
                  end
    /\ stderr p = match stdoutPipeErr w, stderrPipeErr w with
                  | None, None => Some StderrReader
                  | _, _ => None
                  end.
Proof.
  split_world w. run_trace.
  destruct so; [|destruct se; [|destruct st]]; simpl;
    eexists; repeat split; reflexivity.
Qed.

Section RunResults.

Variable env : Env.
Variable fl : SummaryFlags.

(** [run] panics exactly when raw-command is set and there are no
    positional arguments; in every other case it returns. *)
Theorem run_panics_iff (w : World) (opts : options) :
  (exists msg, fst (exec (run env fl w opts)) = Panic msg)
  <-> rawCommand opts = true /\ args opts = [].
Proof.
  rewrite <- (goTestCmdArgs_nil_iff env). split_world w. run_trace.
  destruct (goTestCmdArgs env opts) as [|name rest]; simpl.
  - split; eauto.
  - split; [|discriminate]. intros [msg H]. exfalso. revert H.
    destruct so; simpl; [discriminate|].
    destruct se; simpl; [discriminate|].
    destruct st; simpl; [discriminate|].
    destruct nh; simpl; [discriminate|].
    destruct sc; simpl; [discriminate|].
    destruct ps; simpl; [discriminate|].
    destruct wj; simpl; discriminate.
Qed.

(** What [run] returns for a non-empty command: a launch error wrapped
    with the attempted command; otherwise the first error of handler
    setup, scan, summary and JUnit file, unwrapped; otherwise whatever
    [cmd.Wait] returns. *)
Theorem run_returns_first_error (w : World) (opts : options) :
  goTestCmdArgs env opts <> [] ->
  exists p,
    Args (cmd p) = goTestCmdArgs env opts
    /\ fst (exec (run env fl w opts))
       = Ok (match launchErr w with
             | Some err => Some (wrapFailedToRun err p)
             | None =>
                 match reportErr w with
                 | Some err => Some err
                 | None => waitErr w
                 end
             end).
Proof.
  intros Hne. split_world w. unfold reportErr. run_trace.
  destruct (goTestCmdArgs env opts) as [|name rest]; [congruence|]. simpl.
  destruct so; simpl; [eexists; split; [|reflexivity]; reflexivity|].
  destruct se; simpl; [eexists; split; [|reflexivity]; reflexivity|].
  destruct st; simpl; [eexists; split; [|reflexivity]; reflexivity|].
  exists (mkProc (mkCmd (lp name) (name :: rest)) None None cancelFunc).
  split; [reflexivity|].
  destruct nh; simpl; [reflexivity|].
  destruct sc; simpl; [reflexivity|].
  destruct ps; simpl; [reflexivity|].
  destruct wj; simpl; reflexivity.
Qed.

(** [cmd.Wait] is called once when the launch and every step before it
    succeeded, and not at all otherwise: after a failed handler setup,
    scan, summary or JUnit file [run] returns without waiting for the
    child. *)
Theorem run_waits_only_after_reports (w : World) (opts : options) :
  goTestCmdArgs env opts <> [] ->
  countEv isWait (snd (exec (run env fl w opts)))
  = match launchErr w, reportErr w with
    | None, None => 1%nat
    | _, _ => 0%nat
    end.
Proof.
  intros Hne. split_world w. unfold reportErr. run_trace.
  destruct (goTestCmdArgs env opts) as [|name rest]; [congruence|]. simpl.
  destruct so; simpl; [reflexivity|].
  destruct se; simpl; [reflexivity|].
  destruct st; simpl; [reflexivity|].
  destruct nh; simpl; [reflexivity|].
  destruct sc; simpl; [reflexivity|].
  destruct ps; simpl; [reflexivity|].
  destruct wj; simpl; reflexivity.
Qed.

(** The deferred calls run in reverse order of their [defer]: once the
    handler exists, [run] ends with [handler.Close] and then the
    cancellation, and closes the handler only there; when the handler
    setup fails, [handler.Close] is never called. *)
Theorem run_closes_handler_then_cancels (w : World) (opts : options) :
  goTestCmdArgs env opts <> [] ->
  launchErr w = None ->
  match newEventHandlerErr w with
  | None =>
      exists pre,
        snd (exec (run env fl w opts)) = pre ++ [EvHandlerClose; EvCancel]
        /\ countEv isHandlerClose pre = 0%nat
        /\ countEv isCancel pre = 0%nat
  | Some _ =>
      countEv isHandlerClose (snd (exec (run env fl w opts))) = 0%nat
  end.
Proof.
  intros Hne. split_world w. run_trace.
  destruct (goTestCmdArgs env opts) as [|name rest]; [congruence|]. simpl.
  destruct so; simpl; [discriminate|].
  destruct se; simpl; [discriminate|].
  destruct st; simpl; [discriminate|]. intros _.
  destruct nh; simpl; [reflexivity|].
  destruct sc; simpl; [|destruct ps; simpl; [|destruct wj; simpl]];
    match goal with
    | |- exists pre, ?tr = _ /\ _ => exists (removelast (removelast tr))
    end;
    repeat split; reflexivity.
Qed.

(** The reports: [testjson.PrintSummary] is only called after a
    successful scan and with the value [summarizer] computed, and
    [writeJUnitFile] only after a successful summary, with
    [opts.junitFile] as its path. *)
Theorem run_reports_in_order (w : World) (opts : options) :
  goTestCmdArgs env opts <> [] ->
  let tr := snd (exec (run env fl w opts)) in
  (forall s, In (EvPrintSummary s) tr ->
     s = summarizer fl opts
     /\ scanTestOutputErr w = None
     /\ In EvScanTestOutput (before isPrintSummary tr))
  /\ (forall path, In (EvWriteJUnitFile path) tr ->
        path = junitFile opts
        /\ printSummaryErr w = None
        /\ In (EvPrintSummary (summarizer fl opts)) (before isWriteJUnitFile tr)).
Proof.
  intros Hne. split_world w. run_trace.
  destruct (goTestCmdArgs env opts) as [|name rest]; [congruence|]. simpl.
  assert (D : forall (P : Prop) (e1 e2 : Event), e1 <> e2 -> e1 = e2 \/ P -> P)
    by (intros P e1 e2 N [E|HP]; [congruence | exact HP]).
  destruct so; [|destruct se; [|destruct st; [|destruct nh; [|destruct sc;
    [|destruct ps; [|destruct wj]]]]]]; simpl;
    (split; [intros s H | intros path H]);
    repeat (apply D in H; [|discriminate]);
    try contradiction;
    repeat match goal with
           | H : _ = _ \/ _ |- _ => destruct H as [H|H]
           | H : EvPrintSummary _ = EvPrintSummary _ |- _ => inversion H; subst; clear H
           | H : EvWriteJUnitFile _ = EvWriteJUnitFile _ |- _ => inversion H; subst; clear H
           | H : False |- _ => contradiction
           end;
    try discriminate;
    repeat split; auto 20.
Qed.

End RunResults.

Lemma run_returns_first_error_witness :
  fst (exec (run emptyEnv iotaFlags scanFailWorld (cmdline false [])))
  = Ok (Some (ErrorString "failed to parse test output")).
Proof.
  destruct (run_returns_first_error emptyEnv iotaFlags scanFailWorld
              (cmdline false [])) as (p & _ & H);
    [discriminate | exact H].
Defined.

Lemma run_waits_only_after_reports_witness :
  countEv isWait (snd (exec (run emptyEnv iotaFlags scanFailWorld (cmdline false []))))
  = 0%nat
  /\ countEv isWait (snd (exec (run emptyEnv iotaFlags calmWorld (cmdline false []))))
     = 1%nat.
Proof.
  split.
  - apply (run_waits_only_after_reports emptyEnv iotaFlags scanFailWorld
             (cmdline false [])). discriminate.
  - apply (run_waits_only_after_reports emptyEnv iotaFlags calmWorld
             (cmdline false [])). discriminate.
Defined.

Lemma run_closes_handler_then_cancels_witness :
  countEv isHandlerClose
    (snd (exec (run emptyEnv iotaFlags handlerFailWorld (cmdline false []))))
  = 0%nat.
Proof.
  apply (run_closes_handler_then_cancels emptyEnv iotaFlags handlerFailWorld
           (cmdline false [])); [discriminate | reflexivity].
Defined.

Lemma run_reports_in_order_witness :
  In (EvPrintSummary (summarizer iotaFlags junitOptions))
     (before isWriteJUnitFile
        (snd (exec (run emptyEnv iotaFlags calmWorld junitOptions)))).
Proof.
  destruct (run_reports_in_order emptyEnv iotaFlags calmWorld junitOptions)
    as [_ H]; [discriminate|].
  destruct (H "report.xml") as (_ & _ & H3); [simpl; auto 20 | exact H3].
Defined.

(** ** main: a launch failure from end to end *)

Section MainLaunchFailure.

Variable env : Env.
Variable fl : SummaryFlags.

(** [main] ends as the type switch says for the result of [run]. *)
Lemma main_of_run (w : World) (name : string) (opts : options) (r : option error) :
  fst (exec (run env fl w opts)) = Ok r ->
  termination (main env fl w name (Some opts)) = Exited (snd (exitTranslate name r))
  /\ diagnostics (main env fl w name (Some opts)) = fst (exitTranslate name r).
Proof.
  intros Hr. unfold main.
  assert (E : fst (exec (setupLogging opts;; run env fl w opts)) = Ok r).
  { unfold exec at 1, bind.
    destruct (setupLogging opts (mkFrame [] [])) as [[[]|msg] fr0] eqn:Es.
    - pose proof (run_result_any_frame env fl w opts fr0) as Hf.
      destruct (run env fl w opts fr0) as [r0 fr1]. simpl in *. congruence.
    - exfalso. unfold setupLogging, bind, emit, ret in Es.
      destruct (debug opts), (noColor opts); discriminate. }
  destruct (exec (setupLogging opts;; run env fl w opts)) as [r0 tr0].
  simpl in E. subst r0. destruct (exitTranslate name r). split; reflexivity.
Qed.

Lemma run_launch_failure (w : World) (opts : options)
    (cmdName : string) (rest : list string) (err : error) :
  goTestCmdArgs env opts = cmdName :: rest ->
  launchErr w = Some err ->
  fst (exec (run env fl w opts))
  = Ok (Some (WithMessage err
                ("failed to run " ++ lookPath w cmdName ++ " "
                 ++ String.concat " " (cmdName :: rest))%string)).
Proof.
  intros Hargs. split_world w. run_trace. rewrite Hargs. simpl.
  destruct so; simpl; [intros [= ->]; reflexivity|].
  destruct se; simpl; [intros [= ->]; reflexivity|].
  destruct st; simpl; [intros [= ->]; reflexivity | discriminate].
Qed.

(** When a pipe cannot be opened or the child cannot be started, [main]
    exits with status 3 after writing the one line
    "<name>: Error: failed to run <path> <command line>: <cause>".  The
    error is wrapped, so this holds for every kind of cause, also for an
    [*exec.ExitError]. *)
Theorem main_launch_failure_exits_3 (w : World) (name : string) (opts : options)
    (cmdName : string) (rest : list string) (err : error) :
  goTestCmdArgs env opts = cmdName :: rest ->
  launchErr w = Some err ->
  termination (main env fl w name (Some opts)) = Exited 3
  /\ diagnostics (main env fl w name (Some opts))
     = (name ++ ": Error: "
        ++ (("failed to run " ++ lookPath w cmdName ++ " "
             ++ String.concat " " (cmdName :: rest))
            ++ ": " ++ Error err)
        ++ newline)%string.
Proof.
  intros Hargs Herr.
  apply (main_of_run w name opts _ (run_launch_failure w opts cmdName rest err Hargs Herr)).
Qed.

End MainLaunchFailure.

Lemma main_launch_failure_exits_3_witness :
  termination (main emptyEnv iotaFlags stdoutPipeFailWorld "gotestsum"
                 (Some (cmdline false ["./..."])))
  = Exited 3
  /\ diagnostics (main emptyEnv iotaFlags stdoutPipeFailWorld "gotestsum"
                    (Some (cmdline false ["./..."])))
     = ("gotestsum: Error: failed to run go go test -json ./...: "
        ++ "pipe: too many open files" ++ newline)%string.
Proof.
  apply (main_launch_failure_exits_3 emptyEnv iotaFlags stdoutPipeFailWorld
           "gotestsum" (cmdline false ["./..."])
           "go" ["test"; "-json"; "./..."]
           (ErrorString "pipe: too many open files"));
    reflexivity.
Defined.

(** ** Summary policy: order, other names, lists without repetition *)

(** Entries with a name other than "failed", "skipped" and "errors" can
    be dropped from the suppress list, wherever they stand, without
    changing the result. *)
Theorem summarizer_ignores_unrecognized (fl : SummaryFlags) (l : list string) :
  summarizer fl (suppress l) = summarizer fl (suppress (filter recognized l)).
Proof.
  unfold summarizer. cbn [noSummary suppress].
  generalize (SummarizeAll fl) as s.
  induction l as [|a l IH]; intros s; [reflexivity|].
  cbn [filter fold_left]. destruct (recognized a) eqn:Ra.
  - cbn [fold_left]. apply IH.
  - rewrite (summarizerStep_unrecognized fl s a Ra). apply IH.
Qed.

Section SummaryCounts.

Variable fl : SummaryFlags.
Hypothesis flags_ok : flagsOk fl = true.

Lemma total_by_counts (l : list string) :
  total fl l
  = occurrences l "failed" * SummarizeFailed fl
    + occurrences l "skipped" * SummarizeSkipped fl
    + occurrences l "errors" * SummarizeErrors fl.
Proof.
  unfold occurrences. induction l as [|a l IH]; [reflexivity|].
  cbn [total fold_right]. fold (total fl l). rewrite IH. unfold flagOf.
  cbn [count_occ].
  destruct (String.eqb_spec a "failed") as [->|N1].
  - destruct (string_dec "failed" "failed"); [|congruence].
    destruct (string_dec "failed" "skipped"); [discriminate|].
    destruct (string_dec "failed" "errors"); [discriminate|]. lia.
  - destruct (string_dec a "failed"); [congruence|].
    destruct (String.eqb_spec a "skipped") as [->|N2].
    + destruct (string_dec "skipped" "skipped"); [|congruence].
      destruct (string_dec "skipped" "errors"); [discriminate|]. lia.
    + destruct (string_dec a "skipped"); [congruence|].
      destruct (String.eqb_spec a "errors") as [->|N3].
      * destruct (string_dec "errors" "errors"); [|congruence]. lia.
      * destruct (string_dec a "errors"); [congruence|]. lia.
Qed.

(** The result depends only on how often each of the three names occurs:
    it is the base value minus each flag times the number of its
    occurrences, wrapped to the range of [int]. *)
Theorem summarizer_by_counts (l : list string) :
  summarizer fl (suppress l)
  = int_wrap (SummarizeAll fl
              - (occurrences l "failed" * SummarizeFailed fl
                 + occurrences l "skipped" * SummarizeSkipped fl
                 + occurrences l "errors" * SummarizeErrors fl)).
Proof.
  rewrite (summarizer_total fl flags_ok). cbn [noSummary suppress].
  now rewrite total_by_counts.
Qed.

(** In a list without repeated entries, a recognized name that is not in
    the list keeps its section enabled. *)
Theorem summarizer_nodup_keeps (l : list string) (item : string) :
  NoDup l -> recognized item = true -> ~ In item l ->
  includes (summarizer fl (suppress l)) (flagOf fl item) = true.
Proof.
  intros Hnd Hrec Hnin.
  destruct (flagOf_recognized fl flags_ok item Hrec) as (k & Rk & Ek & Bk).
  rewrite Ek, includes_pow2, (summarizer_nodup_testbit fl flags_ok)
    by (lia || assumption).
  rewrite Bk. cbn [andb]. apply negb_true_iff.
  destruct (existsb (fun x => flagOf fl x =? 2 ^ k) l) eqn:Ex; [|reflexivity].
  exfalso. apply existsb_exists in Ex. destruct Ex as (x & Hin & Hx).
  apply Z.eqb_eq in Hx. apply Hnin.
  assert (x = item) as <-; [|exact Hin].
  apply (flagOf_inj fl flags_ok);
    [apply (flagOf_pos_recognized fl x k); [lia | exact Hx] | exact Hrec | congruence].
Qed.

End SummaryCounts.

Lemma nodup_failed_errors : NoDup ["failed"; "errors"].
Proof.
  repeat constructor; simpl; intuition discriminate.
Defined.

Lemma summarizer_perm_witness :
  summarizer iotaFlags (suppress ["failed"; "skipped"; "failed"])
  = summarizer iotaFlags (suppress ["skipped"; "failed"; "failed"]).
Proof.
  apply (summarizer_perm iotaFlags eq_refl).
  apply perm_swap.
Defined.

Lemma summarizer_by_counts_witness :
  summarizer threeFlags (suppress ["failed"; "output"; "failed"; "errors"])
  = int_wrap (7 - (2 * 2 + 0 * 1 + 1 * 4)).
Proof.
  apply (summarizer_by_counts threeFlags eq_refl
           ["failed"; "output"; "failed"; "errors"]).
Defined.

Lemma summarizer_nodup_subset_witness :
  sectionsSubset (summarizer iotaFlags (suppress ["failed"; "errors"]))
                 (SummarizeAll iotaFlags) = true.
Proof.
  apply (summarizer_nodup_subset iotaFlags eq_refl ["failed"; "errors"]
           nodup_failed_errors).
Defined.

Lemma summarizer_nodup_removes_witness :
  includes (summarizer iotaFlags (suppress ["failed"; "errors"]))
           (SummarizeErrors iotaFlags) = false.
Proof.
  apply (summarizer_nodup_removes iotaFlags eq_refl ["failed"; "errors"] "errors"
           nodup_failed_errors); [simpl; auto | reflexivity].
Defined.

Lemma summarizer_nodup_keeps_witness :
  includes (summarizer iotaFlags (suppress ["failed"; "errors"]))
           (SummarizeSkipped iotaFlags) = true.
Proof.
  apply (summarizer_nodup_keeps iotaFlags eq_refl ["failed"; "errors"] "skipped"
           nodup_failed_errors); [reflexivity|].
  simpl. intuition discriminate.
Defined.

(** ** The whole pipeline *)

Section Pipeline.

Variable env : Env.
Variable fl : SummaryFlags.

(** When every step succeeds, [run] makes its calls in this order: the
    context, the command, both pipes, the start, the handler, the scan,
    the summary, the JUnit file, the wait, and then the deferred
    [handler.Close] and cancellation; it returns what [cmd.Wait]
    returned. *)
Theorem run_success_trace (w : World) (opts : options)
    (cmdName : string) (rest : list string) :
  goTestCmdArgs env opts = cmdName :: rest ->
  launchErr w = None ->
  reportErr w = None ->
  exec (run env fl w opts)
  = (Ok (waitErr w),
     [EvWithCancel; EvCommandContext cmdName rest; EvDebugExec (cmdName :: rest);
      EvStdoutPipe; EvStderrPipe; EvStart; EvDebugPid (pid w);
      EvNewEventHandler; EvScanTestOutput;
      EvPrintSummary (summarizer fl opts); EvWriteJUnitFile (junitFile opts);
      EvWait; EvHandlerClose; EvCancel]).
Proof.
  intros Hargs. split_world w. unfold reportErr. run_trace. rewrite Hargs. simpl.
  destruct so; simpl; [discriminate|].
  destruct se; simpl; [discriminate|].
  destruct st; simpl; [discriminate|]. intros _.
  destruct nh; simpl; [discriminate|].
  destruct sc; simpl; [discriminate|].
  destruct ps; simpl; [discriminate|].
  destruct wj; simpl; [discriminate|]. reflexivity.
Qed.

(** [run] only appends to the trace of its caller. *)
Lemma run_appends (w : World) (opts : options) (fr : Frame) :
  trace (snd (run env fl w opts fr)) = trace fr ++ snd (exec (run env fl w opts))
  /\ deferred (snd (run env fl w opts fr)) = deferred fr.
Proof.
  split_world w. destruct fr as [tr ds]. run_trace.
  destruct (goTestCmdArgs env opts) as [|name rest]; simpl; [auto|].
  destruct so; simpl; [rewrite <- !app_assoc; auto|].
  destruct se; simpl; [rewrite <- !app_assoc; auto|].
  destruct st; simpl; [rewrite <- !app_assoc; auto|].
  destruct nh; simpl; [rewrite <- !app_assoc; auto|].
  destruct sc; simpl; [rewrite <- !app_assoc; auto|].
  destruct ps; simpl; [rewrite <- !app_assoc; auto|].
  destruct wj; simpl; rewrite <- !app_assoc; auto.
Qed.

(** [main] sets up logging before anything else: its calls are the log
    level when [--debug] is given, the color switch when [--no-color] is
    given, and then the calls of [run]. *)
Theorem main_logging_then_run (w : World) (name : string) (opts : options) :
  calls (main env fl w name (Some opts))
  = (if debug opts then [EvSetDebugLevel] else [])
    ++ (if noColor opts then [EvSetNoColor] else [])
    ++ snd (exec (run env fl w opts)).
Proof.
  unfold main, exec at 1, bind at 1.
  destruct (setupLogging opts (mkFrame [] [])) as [[[]|msg] fr0] eqn:Es.
  - destruct (run_appends w opts fr0) as [Ht _].
    destruct (run env fl w opts fr0) as [[r|msg] fr1]; simpl in Ht |- *.
    + destruct (exitTranslate name r). simpl. rewrite Ht.
      unfold setupLogging, bind, emit, ret in Es.
      destruct (debug opts), (noColor opts); inversion Es; reflexivity.
    + rewrite Ht.
      unfold setupLogging, bind, emit, ret in Es.
      destruct (debug opts), (noColor opts); inversion Es; reflexivity.
  - exfalso. unfold setupLogging, bind, emit, ret in Es.
    destruct (debug opts), (noColor opts); discriminate.
Qed.

End Pipeline.

Lemma run_success_trace_witness :
  exec (run emptyEnv iotaFlags failingTestsWorld junitOptions)
  = (Ok (Some (ExitError "exit status 2" (Some 2))),
     [EvWithCancel; EvCommandContext "go" ["test"; "-json"; "./..."];
      EvDebugExec ["go"; "test"; "-json"; "./..."];
      EvStdoutPipe; EvStderrPipe; EvStart; EvDebugPid 4242;
      EvNewEventHandler; EvScanTestOutput;
      EvPrintSummary 15; EvWriteJUnitFile "report.xml";
      EvWait; EvHandlerClose; EvCancel]).
Proof.
  apply (run_success_trace emptyEnv iotaFlags failingTestsWorld junitOptions
           "go" ["test"; "-json"; "./..."]); reflexivity.
Defined.
